(** * CTimer: stopwatch utilities over POSIX [clock_gettime()]

    A shallow embedding of [ctimer.h] and the properties of its timespec
    arithmetic and of its stopwatch operations.

    Integer model.  [tv_sec] ([time_t]) and [tv_nsec] ([long]) are 64-bit
    signed integers (LP64).  They are carried as [Z]; every arithmetic
    operation of the source is followed by [wrap], the two's-complement
    reduction to the range of [long].  Signed overflow is undefined in C; the
    reduction is what LP64 targets compute, and the properties that need
    exact results carry an explicit [fits_long] hypothesis on the exact value
    concerned, which every overflow-free run satisfies.

    [timespec_sec] returns a [double] and is left out. *)

From Stdlib Require Import ZArith Lia Bool List Morphisms Setoid.
Import ListNotations.
Local Open Scope Z_scope.

(** ** 64-bit signed integers *)

Module Long.

Definition modulus : Z := 2 ^ 64.
Definition LONG_MIN : Z := - 2 ^ 63.
Definition LONG_MAX : Z := 2 ^ 63 - 1.

(** Reduction of an exact result to the representable range. *)
Definition wrap (z : Z) : Z := (z - LONG_MIN) mod modulus + LONG_MIN.

(** The exact value [z] is representable: computing it does not overflow. *)
Definition fits_long (z : Z) : Prop := LONG_MIN <= z <= LONG_MAX.

Definition add (x y : Z) : Z := wrap (x + y).
Definition sub (x y : Z) : Z := wrap (x - y).
Definition mul (x y : Z) : Z := wrap (x * y).
(** C division truncates towards zero; by a positive constant it cannot
    leave the range. *)
Definition div (x y : Z) : Z := wrap (Z.quot x y).

End Long.

Import Long.

(** ** Unit conversion constants *)

Definition _MSEC_PER_SEC : Z := 1000.
Definition _USEC_PER_SEC : Z := 1000 * 1000.
Definition _NSEC_PER_SEC : Z := 1000 * 1000 * 1000.

(** ** Data *)

(** [struct timespec]. *)
Record timespec_t : Type := mk_timespec {
  tv_sec  : Z;
  tv_nsec : Z
}.

(** Stopwatch timer struct. *)
Record ctimer_t : Type := mk_ctimer {
  tic     : timespec_t;   (* stopwatch start time *)
  toc     : timespec_t;   (* stopwatch end time *)
  elapsed : timespec_t    (* elapsed time between tic and toc *)
}.

(** ** Timespec API *)

(** [timespec_sub( &td, t1, t2 )]: the value left in [td]. *)
Definition timespec_sub (t1 t2 : timespec_t) : timespec_t :=
  let nsec := Long.sub (tv_nsec t2) (tv_nsec t1) in
  let sec  := Long.sub (tv_sec t2) (tv_sec t1) in
  if (sec >? 0) && (nsec <? 0) then
    {| tv_sec := Long.sub sec 1; tv_nsec := Long.add nsec _NSEC_PER_SEC |}
  else if (sec <? 0) && (nsec >? 0) then
    {| tv_sec := Long.add sec 1; tv_nsec := Long.sub nsec _NSEC_PER_SEC |}
  else
    {| tv_sec := sec; tv_nsec := nsec |}.

(** [timespec_add( &t1, t2 )]: the value left in [t1]. *)
Definition timespec_add (t1 t2 : timespec_t) : timespec_t :=
  let nsec := Long.add (tv_nsec t1) (tv_nsec t2) in
  let sec  := Long.add (tv_sec t1) (tv_sec t2) in
  if nsec >=? _NSEC_PER_SEC then
    {| tv_sec := Long.add sec 1; tv_nsec := Long.sub nsec _NSEC_PER_SEC |}
  else
    {| tv_sec := sec; tv_nsec := nsec |}.

Definition timespec_msec (t : timespec_t) : Z :=
  Long.add (Long.mul (tv_sec t) _MSEC_PER_SEC)
           (Long.div (tv_nsec t) _USEC_PER_SEC).

Definition timespec_usec (t : timespec_t) : Z :=
  Long.add (Long.mul (tv_sec t) _USEC_PER_SEC)
           (Long.div (tv_nsec t) _MSEC_PER_SEC).

Definition timespec_nsec (t : timespec_t) : Z :=
  Long.add (Long.mul (tv_sec t) _NSEC_PER_SEC) (tv_nsec t).

(** ** The monotonic clock

    [clock_gettime( CLOCK_MONOTONIC, . )] is the only effect of the library.
    The clock is an input trace: [samples w i] is what the [i]-th read
    returns, [reads w] counts the reads made so far. *)

Record world : Type := mk_world {
  samples : nat -> timespec_t;
  reads   : nat
}.

(** Computations that read the clock. *)
Definition Clock (A : Type) : Type := world -> A * world.

Definition ret {A : Type} (a : A) : Clock A := fun w => (a, w).

Definition bind {A B : Type} (m : Clock A) (k : A -> Clock B) : Clock B :=
  fun w => let (a, w') := m w in k a w'.

Notation "x <- m ;; k" := (bind m (fun x => k))
  (at level 61, m at next level, right associativity).

Definition clock_gettime : Clock timespec_t :=
  fun w => (samples w (reads w),
            {| samples := samples w; reads := S (reads w) |}).

(** ** Stopwatch API *)

Definition ctimer_measure (t : ctimer_t) : ctimer_t :=
  {| tic := tic t; toc := toc t; elapsed := timespec_sub (tic t) (toc t) |}.

Definition ctimer_lap (t : ctimer_t) : ctimer_t :=
  let lap_buf := timespec_sub (tic t) (toc t) in
  {| tic := tic t; toc := toc t; elapsed := timespec_add (elapsed t) lap_buf |}.

Definition ctimer_reset (t : ctimer_t) : ctimer_t :=
  {| tic := tic t; toc := toc t; elapsed := {| tv_sec := 0; tv_nsec := 0 |} |}.

Definition ctimer_start (t : ctimer_t) : Clock ctimer_t :=
  now <- clock_gettime ;;
  ret {| tic := now; toc := toc t; elapsed := elapsed t |}.

(** The argument [CTIMER_MEASURE_ON_STOP] tells whether the preprocessor
    macro of that name is defined in the build. *)
Definition ctimer_stop (CTIMER_MEASURE_ON_STOP : bool) (t : ctimer_t)
  : Clock ctimer_t :=
  now <- clock_gettime ;;
  let t' := {| tic := tic t; toc := now; elapsed := elapsed t |} in
  ret (if CTIMER_MEASURE_ON_STOP then ctimer_measure t' else t').

(** ** The multi-lap usage pattern

    The loop body of the example program: start, work, stop, lap. *)

Definition lap_iteration (t : ctimer_t) : Clock ctimer_t :=
  t1 <- ctimer_start t ;;
  t2 <- ctimer_stop false t1 ;;
  ret (ctimer_lap t2).

Fixpoint lap_loop (n : nat) (t : ctimer_t) : Clock ctimer_t :=
  match n with
  | O => ret t
  | S k => t' <- lap_iteration t ;; lap_loop k t'
  end.

(** ** Vocabulary of the properties *)

(** A timestamp is normalized when its nanoseconds are in [0, 10^9). *)
Definition normalized (t : timespec_t) : Prop :=
  0 <= tv_nsec t < _NSEC_PER_SEC.

(** The exact total of nanoseconds of a timestamp, before any reduction. *)
Definition total_nsec (t : timespec_t) : Z :=
  tv_sec t * _NSEC_PER_SEC + tv_nsec t.

(** The samples of the [i]-th iteration of the lap loop run from [w]. *)
Definition start_sample (w : world) (i : nat) : timespec_t :=
  samples w (reads w + 2 * i)%nat.

Definition stop_sample (w : world) (i : nat) : timespec_t :=
  samples w (reads w + 2 * i + 1)%nat.

(** The clock after one iteration: two more reads were made. *)
Definition after_lap (w : world) : world :=
  {| samples := samples w; reads := S (S (reads w)) |}.

(** Sum over the first [n] iterations of the per-iteration differences. *)
Definition lap_sum (w : world) (n : nat) : Z :=
  fold_right Z.add 0
    (map (fun i => timespec_nsec (stop_sample w i)
                   - timespec_nsec (start_sample w i))
         (seq 0 n)).

(** A clock for running the definitions: the seconds advance by two at every
    read, and each stop sample has fewer nanoseconds than its start sample,
    so that every lap borrows.  One read was made before the loop, as by the
    example program that starts its total timer first. *)
Definition example_world : world :=
  {| samples := fun i =>
       {| tv_sec := 10 + 2 * Z.of_nat i;
          tv_nsec := if Nat.odd i then 900000000 else 100000000 |};
     reads := 1 |}.

Definition example_timer : ctimer_t :=
  {| tic := {| tv_sec := 7; tv_nsec := 7 |};
     toc := {| tv_sec := 8; tv_nsec := 8 |};
     elapsed := {| tv_sec := 9; tv_nsec := 9 |} |}.

(** ** The example programs

    The timer states that the [main] functions of the two example programs
    reach before they print.  [sleep] only lets the clock advance, and the
    output is not modelled. *)

(** [main] of the single-measurement example: start, work, stop, measure. *)
Definition example_main (CTIMER_MEASURE_ON_STOP : bool) (t : ctimer_t)
  : Clock ctimer_t :=
  t1 <- ctimer_start t ;;
  t2 <- ctimer_stop CTIMER_MEASURE_ON_STOP t1 ;;
  ret (ctimer_measure t2).

(** The loop of the lap example in either build. *)
Definition lap_iteration_in (CTIMER_MEASURE_ON_STOP : bool) (t : ctimer_t)
  : Clock ctimer_t :=
  t1 <- ctimer_start t ;;
  t2 <- ctimer_stop CTIMER_MEASURE_ON_STOP t1 ;;
  ret (ctimer_lap t2).

Fixpoint lap_loop_in (CTIMER_MEASURE_ON_STOP : bool) (n : nat) (t : ctimer_t)
  : Clock ctimer_t :=
  match n with
  | O => ret t
  | S k => t' <- lap_iteration_in CTIMER_MEASURE_ON_STOP t ;;
           lap_loop_in CTIMER_MEASURE_ON_STOP k t'
  end.

(** [main] of the lap example, with [n] for the 5 iterations of the source:
    a total timer around a body timer that laps [n] times.  Returns the
    total timer and the body timer. *)
Definition lap_example_main (CTIMER_MEASURE_ON_STOP : bool) (n : nat)
  (t_total t_body : ctimer_t) : Clock (ctimer_t * ctimer_t) :=
  t_total1 <- ctimer_start t_total ;;
  t_body1 <- lap_loop_in CTIMER_MEASURE_ON_STOP n (ctimer_reset t_body) ;;
  t_total2 <- ctimer_stop CTIMER_MEASURE_ON_STOP t_total1 ;;
  ret (ctimer_measure t_total2, t_body1).

(** ** Vocabulary of the clock *)

(** A timestamp as [CLOCK_MONOTONIC] returns it: normalized, not negative,
    and with a representable total of nanoseconds. *)
Definition clock_sample (t : timespec_t) : Prop :=
  normalized t /\ 0 <= tv_sec t /\ fits_long (total_nsec t).

(** The next [k] reads of the clock return clock samples that do not
    decrease. *)
Definition monotonic (w : world) (k : nat) : Prop :=
  forall i : nat, (i < k)%nat ->
    clock_sample (samples w (reads w + i))
    /\ ((S i < k)%nat ->
        total_nsec (samples w (reads w + i))
        <= total_nsec (samples w (reads w + S i))).

(** The two components of a duration agree in sign, as after
    [timespec_sub] on normalized operands. *)
Definition sign_coherent (t : timespec_t) : Prop :=
  (0 <= tv_sec t /\ 0 <= tv_nsec t) \/ (tv_sec t <= 0 /\ tv_nsec t <= 0).

(** ** Facts on the reduction to [long] *)

(** Congruence modulo 2^64 is compatible with the ring operations. *)
#[global] Instance eqm_long_equiv : Equivalence (eqm modulus) :=
  eqm_setoid modulus.
#[global] Instance eqm_long_add : Proper (eqm modulus ==> eqm modulus ==> eqm modulus) Z.add :=
  Zplus_eqm modulus.
#[global] Instance eqm_long_sub : Proper (eqm modulus ==> eqm modulus ==> eqm modulus) Z.sub :=
  Zminus_eqm modulus.
#[global] Instance eqm_long_mul : Proper (eqm modulus ==> eqm modulus ==> eqm modulus) Z.mul :=
  Zmult_eqm modulus.
#[global] Instance eqm_long_opp : Proper (eqm modulus ==> eqm modulus) Z.opp :=
  Zopp_eqm modulus.

Section WrapFacts.

Local Notation "a == b" := (eqm modulus a b) (at level 70).

Lemma wrap_fits (z : Z) : fits_long z -> wrap z = z.
Proof.
  unfold fits_long, wrap, modulus, LONG_MIN, LONG_MAX. intros H.
  rewrite Z.mod_small; lia.
Qed.

Lemma wrap_range (z : Z) : fits_long (wrap z).
Proof.
  unfold fits_long, wrap, LONG_MAX.
  assert (B : 0 <= (z - LONG_MIN) mod modulus < modulus)
    by (apply Z.mod_pos_bound; reflexivity).
  unfold modulus, LONG_MIN in *. lia.
Qed.

Lemma wrap_eqm (z : Z) : wrap z == z.
Proof.
  unfold wrap, eqm.
  rewrite Z.add_mod_idemp_l by (unfold modulus; lia).
  f_equal. ring.
Qed.

Lemma wrap_congr (a b : Z) : a == b -> wrap a = wrap b.
Proof.
  intros H. unfold wrap. f_equal.
  change (a - LONG_MIN == b - LONG_MIN).
  apply Zminus_eqm; [exact H | apply eqm_refl].
Qed.

(** A reduced value that is congruent to a representable one is equal
    to it. *)
Lemma wrap_unique (a b : Z) : a == b -> fits_long b -> wrap a = b.
Proof.
  intros H F. rewrite (wrap_congr _ _ H). now apply wrap_fits.
Qed.

End WrapFacts.

(** ** Totals are preserved modulo 2^64

    Whichever branch [timespec_sub] and [timespec_add] take, and whatever
    is reduced on the way, the exact total of the result is congruent to the
    difference, respectively the sum, of the exact totals of the operands. *)

Section Totals.

Local Notation "a == b" := (eqm modulus a b) (at level 70).

Ltac unwrap :=
  unfold Long.add, Long.sub, Long.mul; cbn [tv_sec tv_nsec];
  repeat setoid_rewrite wrap_eqm.

Ltac eqm_ring :=
  match goal with
  | |- eqm _ ?l ?r => replace l with r by ring; apply eqm_refl
  end.

Lemma timespec_nsec_total (t : timespec_t) :
  timespec_nsec t = wrap (total_nsec t).
Proof.
  unfold timespec_nsec, total_nsec. unfold Long.add at 1.
  apply wrap_congr. unwrap. apply eqm_refl.
Qed.

Lemma timespec_sub_total (t1 t2 : timespec_t) :
  total_nsec (timespec_sub t1 t2) == total_nsec t2 - total_nsec t1.
Proof.
  unfold timespec_sub, total_nsec.
  destruct (_ && _); [| destruct (_ && _)]; unwrap; eqm_ring.
Qed.

Lemma timespec_add_total (t1 t2 : timespec_t) :
  total_nsec (timespec_add t1 t2) == total_nsec t1 + total_nsec t2.
Proof.
  unfold timespec_add, total_nsec.
  destruct (_ >=? _); unwrap; eqm_ring.
Qed.

Lemma timespec_nsec_eqm (t : timespec_t) : timespec_nsec t == total_nsec t.
Proof. rewrite timespec_nsec_total. apply wrap_eqm. Qed.

Lemma timespec_nsec_fits (t : timespec_t) :
  fits_long (total_nsec t) -> timespec_nsec t = total_nsec t.
Proof. intros F. rewrite timespec_nsec_total. now apply wrap_fits. Qed.

End Totals.

(** * Properties of the timespec arithmetic *)

(** C5.  When both operands are normalized, the single conditional carry of
    [timespec_add] leaves the nanoseconds of the result in [0, 10^9); when
    the raw sum of the nanoseconds is exactly 10^9 the carry is taken and the
    result has 0 nanoseconds. *)
Theorem timespec_add_normalized (t1 t2 : timespec_t) :
  normalized t1 -> normalized t2 ->
  normalized (timespec_add t1 t2)
  /\ (tv_nsec t1 + tv_nsec t2 = _NSEC_PER_SEC ->
      tv_nsec (timespec_add t1 t2) = 0).
Proof.
  unfold normalized, timespec_add, _NSEC_PER_SEC. intros H1 H2.
  assert (E : Long.add (tv_nsec t1) (tv_nsec t2) = tv_nsec t1 + tv_nsec t2).
  { apply wrap_fits. unfold fits_long, LONG_MIN, LONG_MAX. lia. }
  rewrite E.
  destruct (Z.geb_spec (tv_nsec t1 + tv_nsec t2) (1000 * 1000 * 1000)) as [G | G];
    cbn [tv_nsec].
  - assert (F : Long.sub (tv_nsec t1 + tv_nsec t2) (1000 * 1000 * 1000)
                = tv_nsec t1 + tv_nsec t2 - 1000 * 1000 * 1000).
    { apply wrap_fits. unfold fits_long, LONG_MIN, LONG_MAX. lia. }
    rewrite F. split; lia.
  - split; lia.
Qed.

Lemma timespec_add_normalized_witness :
  normalized (timespec_add {| tv_sec := 1; tv_nsec := 999999999 |}
                           {| tv_sec := 2; tv_nsec := 1 |})
  /\ (999999999 + 1 = _NSEC_PER_SEC ->
      tv_nsec (timespec_add {| tv_sec := 1; tv_nsec := 999999999 |}
                            {| tv_sec := 2; tv_nsec := 1 |}) = 0).
Proof.
  apply (timespec_add_normalized {| tv_sec := 1; tv_nsec := 999999999 |}
                                 {| tv_sec := 2; tv_nsec := 1 |});
    unfold normalized, _NSEC_PER_SEC; simpl; lia.
Defined.

(** C3.  [timespec_add] preserves the total of nanoseconds: provided the sum
    of the two totals is representable (no overflow),
    [timespec_nsec (timespec_add t1 t2)] is
    [timespec_nsec t1 + timespec_nsec t2]; in particular the total of the sum
    does not depend on the order of the operands.  Holds for all timestamps,
    normalized or not. *)
Theorem timespec_add_nsec (t1 t2 : timespec_t) :
  fits_long (timespec_nsec t1 + timespec_nsec t2) ->
  timespec_nsec (timespec_add t1 t2) = timespec_nsec t1 + timespec_nsec t2
  /\ timespec_nsec (timespec_add t1 t2) = timespec_nsec (timespec_add t2 t1).
Proof.
  intros F.
  assert (S : forall a b,
             eqm modulus (total_nsec (timespec_add a b))
                         (timespec_nsec a + timespec_nsec b)).
  { intros a b. rewrite timespec_add_total.
    now setoid_rewrite timespec_nsec_eqm. }
  split.
  - rewrite timespec_nsec_total. apply wrap_unique; [apply S | exact F].
  - rewrite !timespec_nsec_total. apply wrap_congr.
    rewrite !S. now rewrite Z.add_comm.
Qed.

Lemma timespec_add_nsec_witness :
  timespec_nsec (timespec_add {| tv_sec := 3; tv_nsec := 700000000 |}
                              {| tv_sec := 4; tv_nsec := 600000000 |})
  = timespec_nsec {| tv_sec := 3; tv_nsec := 700000000 |}
    + timespec_nsec {| tv_sec := 4; tv_nsec := 600000000 |}
  /\ timespec_nsec (timespec_add {| tv_sec := 3; tv_nsec := 700000000 |}
                                 {| tv_sec := 4; tv_nsec := 600000000 |})
     = timespec_nsec (timespec_add {| tv_sec := 4; tv_nsec := 600000000 |}
                                   {| tv_sec := 3; tv_nsec := 700000000 |}).
Proof.
  apply (timespec_add_nsec {| tv_sec := 3; tv_nsec := 700000000 |}
                           {| tv_sec := 4; tv_nsec := 600000000 |}).
  vm_compute. split; discriminate.
Defined.

(** C7.  The difference is antisymmetric in total nanoseconds under operand
    swap: provided the negation is representable (no overflow),
    [timespec_nsec (timespec_sub a b)] is the arithmetic negation of
    [timespec_nsec (timespec_sub b a)].  Holds for all timestamps, a fortiori
    for normalized ones. *)
Theorem timespec_sub_antisym (a b : timespec_t) :
  fits_long (- timespec_nsec (timespec_sub b a)) ->
  timespec_nsec (timespec_sub a b) = - timespec_nsec (timespec_sub b a).
Proof.
  intros F. rewrite (timespec_nsec_total (timespec_sub a b)).
  apply wrap_unique; [| exact F].
  setoid_rewrite timespec_nsec_eqm. rewrite !timespec_sub_total.
  match goal with
  | |- eqm _ ?l ?r => replace l with r by ring; reflexivity
  end.
Qed.

Lemma timespec_sub_antisym_witness :
  timespec_nsec (timespec_sub {| tv_sec := 5; tv_nsec := 100 |}
                              {| tv_sec := 6; tv_nsec := 50 |})
  = - timespec_nsec (timespec_sub {| tv_sec := 6; tv_nsec := 50 |}
                                  {| tv_sec := 5; tv_nsec := 100 |}).
Proof.
  apply (timespec_sub_antisym {| tv_sec := 5; tv_nsec := 100 |}
                              {| tv_sec := 6; tv_nsec := 50 |}).
  vm_compute. split; discriminate.
Defined.

(** C1.  For normalized [a] and [b] whose totals are representable, with [b]
    chronologically after [a] ([timespec_nsec a <= timespec_nsec b]) and the
    difference of the totals representable (no overflow), the result of
    [timespec_sub a b] has non-negative seconds and its total of nanoseconds
    is exactly [timespec_nsec b - timespec_nsec a]. *)
Theorem timespec_sub_after (a b : timespec_t) :
  normalized a -> normalized b ->
  fits_long (total_nsec a) -> fits_long (total_nsec b) ->
  timespec_nsec a <= timespec_nsec b ->
  fits_long (timespec_nsec b - timespec_nsec a) ->
  0 <= tv_sec (timespec_sub a b)
  /\ timespec_nsec (timespec_sub a b) = timespec_nsec b - timespec_nsec a.
Proof.
  intros Na Nb Fa Fb Le Fd. split.
  - rewrite (timespec_nsec_fits a Fa), (timespec_nsec_fits b Fb) in Le.
    unfold normalized, total_nsec, fits_long, LONG_MIN, LONG_MAX in *.
    change _NSEC_PER_SEC with 1000000000 in *.
    assert (Hs : tv_sec a <= tv_sec b) by lia.
    assert (Es : Long.sub (tv_sec b) (tv_sec a) = tv_sec b - tv_sec a).
    { apply wrap_fits. unfold fits_long, LONG_MIN, LONG_MAX. lia. }
    unfold timespec_sub. rewrite Es.
    destruct (Z.gtb_spec (tv_sec b - tv_sec a) 0) as [P | P];
      destruct (Z.ltb_spec (Long.sub (tv_nsec b) (tv_nsec a)) 0) as [Q | Q];
      cbn [andb tv_sec].
    + assert (E1 : Long.sub (tv_sec b - tv_sec a) 1 = tv_sec b - tv_sec a - 1).
      { apply wrap_fits. unfold fits_long, LONG_MIN, LONG_MAX. lia. }
      rewrite E1. lia.
    + destruct (Z.ltb_spec (tv_sec b - tv_sec a) 0); cbn [andb tv_sec]; lia.
    + destruct (Z.ltb_spec (tv_sec b - tv_sec a) 0); cbn [andb tv_sec]; lia.
    + destruct (Z.ltb_spec (tv_sec b - tv_sec a) 0); cbn [andb tv_sec]; lia.
  - rewrite (timespec_nsec_total (timespec_sub a b)).
    apply wrap_unique; [| exact Fd].
    setoid_rewrite timespec_nsec_eqm. apply timespec_sub_total.
Qed.

Lemma timespec_sub_after_witness :
  0 <= tv_sec (timespec_sub {| tv_sec := 5; tv_nsec := 100 |}
                            {| tv_sec := 7; tv_nsec := 50 |})
  /\ timespec_nsec (timespec_sub {| tv_sec := 5; tv_nsec := 100 |}
                                 {| tv_sec := 7; tv_nsec := 50 |})
     = timespec_nsec {| tv_sec := 7; tv_nsec := 50 |}
       - timespec_nsec {| tv_sec := 5; tv_nsec := 100 |}.
Proof.
  apply (timespec_sub_after {| tv_sec := 5; tv_nsec := 100 |}
                            {| tv_sec := 7; tv_nsec := 50 |});
    vm_compute; repeat split; try discriminate.
Defined.

(** C9.  For a timestamp with non-negative seconds and nanoseconds whose
    total is representable (no overflow), [timespec_msec] is [timespec_nsec]
    divided by 1,000,000 with integer truncation. *)
Theorem timespec_msec_nsec (t : timespec_t) :
  0 <= tv_sec t -> 0 <= tv_nsec t ->
  fits_long (total_nsec t) ->
  timespec_msec t = Z.quot (timespec_nsec t) 1000000.
Proof.
  intros Hs Hn F. rewrite (timespec_nsec_fits t F).
  unfold total_nsec, fits_long, LONG_MIN, LONG_MAX in *.
  unfold timespec_msec, Long.add, Long.mul, Long.div.
  change _NSEC_PER_SEC with 1000000000 in *.
  change _MSEC_PER_SEC with 1000. change _USEC_PER_SEC with 1000000.
  assert (Q : 0 <= Z.quot (tv_nsec t) 1000000 <= tv_nsec t).
  { rewrite Z.quot_div_nonneg by lia. split.
    - apply Z.div_pos; lia.
    - apply Z.div_le_upper_bound; lia. }
  rewrite (wrap_fits (tv_sec t * 1000))
    by (unfold fits_long, LONG_MIN, LONG_MAX; lia).
  rewrite (wrap_fits (Z.quot (tv_nsec t) 1000000))
    by (unfold fits_long, LONG_MIN, LONG_MAX; lia).
  rewrite wrap_fits by (unfold fits_long, LONG_MIN, LONG_MAX; lia).
  rewrite !Z.quot_div_nonneg by lia.
  replace (tv_sec t * 1000000000 + tv_nsec t)
    with (tv_sec t * 1000 * 1000000 + tv_nsec t) by ring.
  rewrite Z.div_add_l by lia. reflexivity.
Qed.

Lemma timespec_msec_nsec_witness :
  timespec_msec {| tv_sec := 12; tv_nsec := 345678901 |}
  = Z.quot (timespec_nsec {| tv_sec := 12; tv_nsec := 345678901 |}) 1000000.
Proof.
  apply (timespec_msec_nsec {| tv_sec := 12; tv_nsec := 345678901 |});
    vm_compute; repeat split; try discriminate.
Defined.

(** * Properties of the stopwatch *)

(** C8.  [ctimer_reset] sets [elapsed] to the zero timestamp, so that its
    total of nanoseconds read immediately afterwards is 0, and leaves [tic]
    and [toc] as they were. *)
Theorem ctimer_reset_spec (t : ctimer_t) :
  elapsed (ctimer_reset t) = {| tv_sec := 0; tv_nsec := 0 |}
  /\ timespec_nsec (elapsed (ctimer_reset t)) = 0
  /\ tic (ctimer_reset t) = tic t
  /\ toc (ctimer_reset t) = toc t.
Proof. repeat split. Qed.

(** C10.  [ctimer_measure] is idempotent: measuring twice leaves the
    stopwatch as measuring once does.  It changes no field but [elapsed], and
    the [elapsed] it stores does not depend on the one it finds. *)
Theorem ctimer_measure_idempotent (t : ctimer_t) :
  ctimer_measure (ctimer_measure t) = ctimer_measure t
  /\ tic (ctimer_measure t) = tic t
  /\ toc (ctimer_measure t) = toc t
  /\ (forall e : timespec_t,
        ctimer_measure {| tic := tic t; toc := toc t; elapsed := e |}
        = ctimer_measure t).
Proof. repeat split. Qed.

(** C4.  In a build with [CTIMER_MEASURE_ON_STOP], for every stopwatch and
    every state of the clock, [ctimer_stop] leaves the stopwatch (and the
    clock) exactly as [ctimer_stop] of a build without it followed by
    [ctimer_measure] does.  In particular start then stop alone leaves in
    [elapsed] what start, plain stop and an explicit measure leave there,
    namely [timespec_sub tic toc]. *)
Theorem ctimer_stop_measure_on_stop (t : ctimer_t) (w : world) :
  ctimer_stop true t w
  = (t' <- ctimer_stop false t ;; ret (ctimer_measure t')) w
  /\ (let r := fst ((t1 <- ctimer_start t ;; ctimer_stop true t1) w) in
      let m := fst ((t1 <- ctimer_start t ;;
                     t2 <- ctimer_stop false t1 ;;
                     ret (ctimer_measure t2)) w) in
      elapsed r = elapsed m
      /\ elapsed r = timespec_sub (tic r) (toc r)).
Proof. repeat split. Qed.

(** ** The lap loop *)

Lemma lap_iteration_eq (t : ctimer_t) (w : world) :
  lap_iteration t w
  = ({| tic := samples w (reads w);
        toc := samples w (S (reads w));
        elapsed := timespec_add (elapsed t)
                     (timespec_sub (samples w (reads w))
                                   (samples w (S (reads w)))) |},
     after_lap w).
Proof. reflexivity. Qed.

Lemma lap_loop_S (k : nat) (t : ctimer_t) (w : world) :
  lap_loop (S k) t w
  = lap_loop k (fst (lap_iteration t w)) (snd (lap_iteration t w)).
Proof. reflexivity. Qed.

Lemma start_sample_after_lap (w : world) (i : nat) :
  start_sample (after_lap w) i = start_sample w (S i).
Proof. unfold start_sample, after_lap. cbn [samples reads]. f_equal. lia. Qed.

Lemma stop_sample_after_lap (w : world) (i : nat) :
  stop_sample (after_lap w) i = stop_sample w (S i).
Proof. unfold stop_sample, after_lap. cbn [samples reads]. f_equal. lia. Qed.

Lemma start_sample_0 (w : world) : start_sample w 0 = samples w (reads w).
Proof. unfold start_sample. f_equal. lia. Qed.

Lemma stop_sample_0 (w : world) : stop_sample w 0 = samples w (S (reads w)).
Proof. unfold stop_sample. f_equal. lia. Qed.

Lemma lap_sum_S (w : world) (k : nat) :
  lap_sum w (S k)
  = timespec_nsec (stop_sample w 0) - timespec_nsec (start_sample w 0)
    + lap_sum (after_lap w) k.
Proof.
  unfold lap_sum. cbn [seq map fold_right]. f_equal.
  rewrite <- seq_shift, map_map. f_equal. apply map_ext. intros i.
  now rewrite start_sample_after_lap, stop_sample_after_lap.
Qed.

(** Invariant of the loop: the total held in [elapsed] grows by the sum of
    the per-iteration differences, modulo 2^64. *)
Lemma lap_loop_total (n : nat) : forall (t : ctimer_t) (w : world),
  eqm modulus (total_nsec (elapsed (fst (lap_loop n t w))))
              (total_nsec (elapsed t) + lap_sum w n).
Proof.
  induction n as [| k IH]; intros t w.
  - cbn. now rewrite Z.add_0_r.
  - rewrite lap_loop_S, lap_iteration_eq. cbn [fst snd].
    rewrite IH. cbn [elapsed].
    rewrite timespec_add_total, timespec_sub_total, lap_sum_S.
    setoid_rewrite timespec_nsec_eqm.
    rewrite start_sample_0, stop_sample_0.
    match goal with
    | |- eqm _ ?l ?r => replace l with r by ring; reflexivity
    end.
Qed.

(** After at least one iteration [tic] and [toc] hold the samples of the
    last one. *)
Lemma lap_loop_last (n : nat) : forall (t : ctimer_t) (w : world),
  tic (fst (lap_loop (S n) t w)) = start_sample w n
  /\ toc (fst (lap_loop (S n) t w)) = stop_sample w n.
Proof.
  induction n as [| k IH]; intros t w.
  - rewrite lap_loop_S, lap_iteration_eq. cbn.
    now rewrite start_sample_0, stop_sample_0.
  - rewrite lap_loop_S, lap_iteration_eq. cbn [fst snd].
    rewrite <- start_sample_after_lap, <- stop_sample_after_lap.
    apply IH.
Qed.

(** The loop makes two reads of the clock per iteration. *)
Lemma lap_loop_world (n : nat) : forall (t : ctimer_t) (w : world),
  snd (lap_loop n t w)
  = {| samples := samples w; reads := (reads w + 2 * n)%nat |}.
Proof.
  induction n as [| k IH]; intros t w.
  - cbn. destruct w as [s r]. cbn. f_equal. lia.
  - rewrite lap_loop_S, lap_iteration_eq. cbn [fst snd].
    rewrite IH. unfold after_lap. cbn [samples reads]. f_equal. lia.
Qed.

(** C2.  Multi-lap usage without measure-on-stop.  After [ctimer_reset], [n]
    iterations ([1 <= n]) of start, stop, lap over a clock trace leave in
    [elapsed] the accumulated total of the per-iteration differences:
    provided that sum is representable (no overflow),
    [timespec_nsec elapsed] is the sum over the iterations of
    [timespec_nsec e_i - timespec_nsec s_i]; and [tic], [toc] hold exactly
    the samples [s_n], [e_n] of the last iteration.  Holds for every trace of
    samples, a fortiori for normalized ones. *)
Theorem lap_loop_accumulates (n : nat) (t : ctimer_t) (w : world) :
  (1 <= n)%nat ->
  fits_long (lap_sum w n) ->
  timespec_nsec (elapsed (fst (lap_loop n (ctimer_reset t) w))) = lap_sum w n
  /\ tic (fst (lap_loop n (ctimer_reset t) w)) = start_sample w (n - 1)
  /\ toc (fst (lap_loop n (ctimer_reset t) w)) = stop_sample w (n - 1).
Proof.
  intros Hn F. split.
  - rewrite timespec_nsec_total. apply wrap_unique; [| exact F].
    rewrite lap_loop_total. cbn. reflexivity.
  - destruct n as [| k]; [lia |].
    replace (S k - 1)%nat with k by lia. apply lap_loop_last.
Qed.

Lemma lap_loop_accumulates_witness :
  timespec_nsec (elapsed (fst (lap_loop 5 (ctimer_reset example_timer)
                                        example_world)))
  = lap_sum example_world 5
  /\ tic (fst (lap_loop 5 (ctimer_reset example_timer) example_world))
     = start_sample example_world (5 - 1)
  /\ toc (fst (lap_loop 5 (ctimer_reset example_timer) example_world))
     = stop_sample example_world (5 - 1).
Proof.
  apply (lap_loop_accumulates 5 example_timer example_world).
  - lia.
  - vm_compute. split; discriminate.
Defined.

(** The run above, evaluated: five laps of 1.2 s each. *)
Example lap_loop_example :
  fst (lap_loop 5 (ctimer_reset example_timer) example_world)
  = {| tic := {| tv_sec := 28; tv_nsec := 900000000 |};
       toc := {| tv_sec := 30; tv_nsec := 100000000 |};
       elapsed := {| tv_sec := 6; tv_nsec := 0 |} |}
  /\ lap_sum example_world 5 = 6000000000.
Proof. split; vm_compute; reflexivity. Qed.

(** * Further properties of the timespec arithmetic *)

Ltac arith_setup :=
  unfold clock_sample, normalized, total_nsec, fits_long, LONG_MIN, LONG_MAX in *;
  change _NSEC_PER_SEC with 1000000000 in *.

Ltac nowrap :=
  repeat match goal with
  | |- context [wrap ?z] =>
      rewrite (wrap_fits z) by (unfold fits_long, LONG_MIN, LONG_MAX; lia)
  end.

Ltac split_cmp :=
  repeat match goal with
  | |- context [?x >? ?y] => destruct (Z.gtb_spec x y)
  | |- context [?x <? ?y] => destruct (Z.ltb_spec x y)
  | |- context [?x >=? ?y] => destruct (Z.geb_spec x y)
  end; cbn [andb].

(** [timespec_sub] on normalized operands whose seconds differ by a
    representable amount: no operation is reduced. *)
Lemma timespec_sub_exact (a b : timespec_t) :
  normalized a -> normalized b -> fits_long (tv_sec b - tv_sec a) ->
  timespec_sub a b
  = let nsec := tv_nsec b - tv_nsec a in
    let sec := tv_sec b - tv_sec a in
    if (sec >? 0) && (nsec <? 0) then
      {| tv_sec := sec - 1; tv_nsec := nsec + 1000000000 |}
    else if (sec <? 0) && (nsec >? 0) then
      {| tv_sec := sec + 1; tv_nsec := nsec - 1000000000 |}
    else {| tv_sec := sec; tv_nsec := nsec |}.
Proof.
  intros Na Nb F. arith_setup.
  unfold timespec_sub, Long.sub, Long.add. cbv zeta.
  change _NSEC_PER_SEC with 1000000000.
  rewrite (wrap_fits (tv_nsec b - tv_nsec a))
    by (unfold fits_long, LONG_MIN, LONG_MAX; lia).
  rewrite (wrap_fits (tv_sec b - tv_sec a))
    by (unfold fits_long, LONG_MIN, LONG_MAX; lia).
  split_cmp; nowrap; reflexivity.
Qed.

(** [timespec_add] when the sums of the components are representable. *)
Lemma timespec_add_exact (a b : timespec_t) :
  fits_long (tv_nsec a + tv_nsec b) ->
  fits_long (tv_sec a + tv_sec b) -> fits_long (tv_sec a + tv_sec b + 1) ->
  timespec_add a b
  = if tv_nsec a + tv_nsec b >=? 1000000000 then
      {| tv_sec := tv_sec a + tv_sec b + 1;
         tv_nsec := tv_nsec a + tv_nsec b - 1000000000 |}
    else {| tv_sec := tv_sec a + tv_sec b; tv_nsec := tv_nsec a + tv_nsec b |}.
Proof.
  intros Fn Fs Fs1. arith_setup.
  unfold timespec_add, Long.sub, Long.add. cbv zeta.
  change _NSEC_PER_SEC with 1000000000.
  rewrite (wrap_fits (tv_nsec a + tv_nsec b))
    by (unfold fits_long, LONG_MIN, LONG_MAX; lia).
  rewrite (wrap_fits (tv_sec a + tv_sec b))
    by (unfold fits_long, LONG_MIN, LONG_MAX; lia).
  split_cmp; nowrap; reflexivity.
Qed.

(** C6.  Borrow correctness of the difference.  For normalized [t1] and
    [t2] whose seconds delta [tv_sec t2 - tv_sec t1] is positive (and
    representable), when [t1] has the larger nanosecond component
    [timespec_sub t1 t2] performs the borrow: it is exactly one second less
    and 10^9 nanoseconds more than the component-wise subtraction, hence a
    normalized timestamp with non-negative seconds, and it is not the
    component-wise result.  At [t1 = {5 s, 100 ns}], [t2 = {6 s, 50 ns}] this
    is [{0 s, 999999950 ns}], not [{1 s, -50 ns}]. *)
Theorem timespec_sub_borrow (t1 t2 : timespec_t) :
  normalized t1 -> normalized t2 ->
  fits_long (tv_sec t2 - tv_sec t1) ->
  0 < tv_sec t2 - tv_sec t1 ->
  tv_nsec t2 < tv_nsec t1 ->
  timespec_sub t1 t2
  = {| tv_sec := tv_sec t2 - tv_sec t1 - 1;
       tv_nsec := tv_nsec t2 - tv_nsec t1 + _NSEC_PER_SEC |}
  /\ normalized (timespec_sub t1 t2)
  /\ 0 <= tv_sec (timespec_sub t1 t2)
  /\ timespec_sub t1 t2
     <> {| tv_sec := tv_sec t2 - tv_sec t1;
           tv_nsec := tv_nsec t2 - tv_nsec t1 |}.
Proof.
  intros N1 N2 F Hs Hn.
  rewrite (timespec_sub_exact t1 t2 N1 N2 F). cbv zeta.
  change _NSEC_PER_SEC with 1000000000.
  destruct (Z.gtb_spec (tv_sec t2 - tv_sec t1) 0) as [P | P]; [| lia].
  destruct (Z.ltb_spec (tv_nsec t2 - tv_nsec t1) 0) as [Q | Q]; [| lia].
  cbn [andb]. unfold normalized in *. cbn [tv_sec tv_nsec].
  change _NSEC_PER_SEC with 1000000000 in *.
  split; [reflexivity |]. split; [lia |]. split; [lia |].
  intros E. injection E as E1 E2. lia.
Qed.

Lemma timespec_sub_borrow_witness :
  timespec_sub {| tv_sec := 5; tv_nsec := 100 |}
               {| tv_sec := 6; tv_nsec := 50 |}
  = {| tv_sec := 0; tv_nsec := 999999950 |}
  /\ normalized (timespec_sub {| tv_sec := 5; tv_nsec := 100 |}
                              {| tv_sec := 6; tv_nsec := 50 |})
  /\ 0 <= tv_sec (timespec_sub {| tv_sec := 5; tv_nsec := 100 |}
                               {| tv_sec := 6; tv_nsec := 50 |})
  /\ timespec_sub {| tv_sec := 5; tv_nsec := 100 |}
                  {| tv_sec := 6; tv_nsec := 50 |}
     <> {| tv_sec := 1; tv_nsec := -50 |}.
Proof.
  apply (timespec_sub_borrow {| tv_sec := 5; tv_nsec := 100 |}
                             {| tv_sec := 6; tv_nsec := 50 |});
    vm_compute; repeat split; try discriminate.
Defined.

(** The borrow is guarded by a positive seconds delta.  With equal seconds,
    [t1 = {5 s, 100 ns}] and [t2 = {5 s, 50 ns}], [t1] has the larger
    nanosecond component and yet [timespec_sub t1 t2] is the component-wise
    subtraction [{0 s, -50 ns}]: no borrow is made. *)
Lemma timespec_sub_borrow_counterexample :
  normalized {| tv_sec := 5; tv_nsec := 100 |}
  /\ normalized {| tv_sec := 5; tv_nsec := 50 |}
  /\ tv_nsec {| tv_sec := 5; tv_nsec := 50 |}
     < tv_nsec {| tv_sec := 5; tv_nsec := 100 |}
  /\ timespec_sub {| tv_sec := 5; tv_nsec := 100 |}
                  {| tv_sec := 5; tv_nsec := 50 |}
     = {| tv_sec := 5 - 5; tv_nsec := 50 - 100 |}
  /\ timespec_sub {| tv_sec := 5; tv_nsec := 100 |}
                  {| tv_sec := 5; tv_nsec := 50 |}
     = {| tv_sec := 0; tv_nsec := -50 |}
  /\ ~ normalized (timespec_sub {| tv_sec := 5; tv_nsec := 100 |}
                                {| tv_sec := 5; tv_nsec := 50 |}).
Proof.
  repeat split; try (vm_compute; discriminate); try (vm_compute; reflexivity).
  intros [H _]. vm_compute in H. apply H. reflexivity.
Qed.

Ltac use_exact :=
  rewrite ?timespec_sub_exact, ?timespec_add_exact
    by (arith_setup; cbn [tv_sec tv_nsec]; lia);
  cbv zeta; cbn [tv_sec tv_nsec].

Ltac by_cases :=
  split_cmp; cbv iota; cbn [tv_sec tv_nsec]; try lia.

(** X1.  The difference of a timestamp with itself is the zero duration,
    whatever its fields hold. *)
Theorem timespec_sub_self (a : timespec_t) :
  timespec_sub a a = {| tv_sec := 0; tv_nsec := 0 |}.
Proof.
  unfold timespec_sub, Long.sub. rewrite !Z.sub_diag. reflexivity.
Qed.

Lemma timespec_sub_forward_aux (a b : timespec_t) :
  normalized a -> normalized b ->
  fits_long (total_nsec a) -> fits_long (total_nsec b) ->
  total_nsec a <= total_nsec b ->
  0 <= tv_sec (timespec_sub a b)
  /\ normalized (timespec_sub a b)
  /\ total_nsec (timespec_sub a b) = total_nsec b - total_nsec a.
Proof.
  intros Na Nb Fa Fb Le. use_exact. arith_setup.
  by_cases; repeat split; cbn [tv_sec tv_nsec]; lia.
Qed.

(** X2.  When [b] is not before [a], both normalized with representable
    totals, [timespec_sub a b] is itself a normalized timestamp with
    non-negative seconds, and its exact total is the difference of the
    totals. *)
Theorem timespec_sub_forward (a b : timespec_t) :
  normalized a -> normalized b ->
  fits_long (total_nsec a) -> fits_long (total_nsec b) ->
  total_nsec a <= total_nsec b ->
  0 <= tv_sec (timespec_sub a b)
  /\ normalized (timespec_sub a b)
  /\ total_nsec (timespec_sub a b) = total_nsec b - total_nsec a.
Proof. apply timespec_sub_forward_aux. Qed.

Lemma timespec_sub_forward_witness :
  0 <= tv_sec (timespec_sub {| tv_sec := 5; tv_nsec := 100 |}
                            {| tv_sec := 7; tv_nsec := 50 |})
  /\ normalized (timespec_sub {| tv_sec := 5; tv_nsec := 100 |}
                              {| tv_sec := 7; tv_nsec := 50 |})
  /\ total_nsec (timespec_sub {| tv_sec := 5; tv_nsec := 100 |}
                              {| tv_sec := 7; tv_nsec := 50 |})
     = total_nsec {| tv_sec := 7; tv_nsec := 50 |}
       - total_nsec {| tv_sec := 5; tv_nsec := 100 |}.
Proof.
  apply (timespec_sub_forward {| tv_sec := 5; tv_nsec := 100 |}
                              {| tv_sec := 7; tv_nsec := 50 |});
    vm_compute; repeat split; try discriminate.
Defined.

Lemma timespec_sub_backward_aux (a b : timespec_t) :
  normalized a -> normalized b ->
  fits_long (total_nsec a) -> fits_long (total_nsec b) ->
  total_nsec b <= total_nsec a ->
  tv_sec (timespec_sub a b) <= 0
  /\ - _NSEC_PER_SEC < tv_nsec (timespec_sub a b) <= 0
  /\ total_nsec (timespec_sub a b) = total_nsec b - total_nsec a.
Proof.
  intros Na Nb Fa Fb Le. use_exact. arith_setup.
  by_cases; repeat split; cbn [tv_sec tv_nsec]; lia.
Qed.

(** X3.  When [b] is not after [a], [timespec_sub a b] is a negative
    duration whose components agree in sign: seconds at most 0, nanoseconds
    in (-10^9, 0], and the exact total is the (non-positive) difference of
    the totals.  Nothing is clamped. *)
Theorem timespec_sub_backward (a b : timespec_t) :
  normalized a -> normalized b ->
  fits_long (total_nsec a) -> fits_long (total_nsec b) ->
  total_nsec b <= total_nsec a ->
  tv_sec (timespec_sub a b) <= 0
  /\ - _NSEC_PER_SEC < tv_nsec (timespec_sub a b) <= 0
  /\ total_nsec (timespec_sub a b) = total_nsec b - total_nsec a.
Proof. apply timespec_sub_backward_aux. Qed.

Lemma timespec_sub_backward_witness :
  tv_sec (timespec_sub {| tv_sec := 6; tv_nsec := 50 |}
                       {| tv_sec := 5; tv_nsec := 100 |}) <= 0
  /\ - _NSEC_PER_SEC
     < tv_nsec (timespec_sub {| tv_sec := 6; tv_nsec := 50 |}
                             {| tv_sec := 5; tv_nsec := 100 |}) <= 0
  /\ total_nsec (timespec_sub {| tv_sec := 6; tv_nsec := 50 |}
                              {| tv_sec := 5; tv_nsec := 100 |})
     = total_nsec {| tv_sec := 5; tv_nsec := 100 |}
       - total_nsec {| tv_sec := 6; tv_nsec := 50 |}.
Proof.
  apply (timespec_sub_backward {| tv_sec := 6; tv_nsec := 50 |}
                               {| tv_sec := 5; tv_nsec := 100 |});
    vm_compute; repeat split; try discriminate.
Defined.

(** X4.  Round trip: adding to [a] the difference from [a] to a later [b]
    gives back [b] exactly, field by field. *)
Theorem timespec_add_sub (a b : timespec_t) :
  normalized a -> normalized b ->
  fits_long (total_nsec a) -> fits_long (total_nsec b) ->
  total_nsec a <= total_nsec b ->
  timespec_add a (timespec_sub a b) = b.
Proof.
  intros Na Nb Fa Fb Le. use_exact.
  destruct a as [sa na], b as [sb nb]. arith_setup. cbn [tv_sec tv_nsec] in *.
  by_cases; use_exact; by_cases; f_equal; lia.
Qed.

Lemma timespec_add_sub_witness :
  timespec_add {| tv_sec := 5; tv_nsec := 100 |}
               (timespec_sub {| tv_sec := 5; tv_nsec := 100 |}
                             {| tv_sec := 7; tv_nsec := 50 |})
  = {| tv_sec := 7; tv_nsec := 50 |}.
Proof.
  apply (timespec_add_sub {| tv_sec := 5; tv_nsec := 100 |}
                          {| tv_sec := 7; tv_nsec := 50 |});
    vm_compute; repeat split; try discriminate.
Defined.

(** X5.  Round trip the other way: the difference from [a] to [a] plus a
    normalized duration [d] with non-negative seconds is [d] again. *)
Theorem timespec_sub_add (a d : timespec_t) :
  normalized a -> normalized d -> 0 <= tv_sec d ->
  fits_long (total_nsec a) -> fits_long (total_nsec d) ->
  fits_long (total_nsec a + total_nsec d) ->
  timespec_sub a (timespec_add a d) = d.
Proof.
  intros Na Nd Hd Fa Fd Fs. use_exact.
  destruct a as [sa na], d as [sd nd]. arith_setup. cbn [tv_sec tv_nsec] in *.
  by_cases; use_exact; by_cases; f_equal; lia.
Qed.

Lemma timespec_sub_add_witness :
  timespec_sub {| tv_sec := 5; tv_nsec := 900000000 |}
               (timespec_add {| tv_sec := 5; tv_nsec := 900000000 |}
                             {| tv_sec := 1; tv_nsec := 200000000 |})
  = {| tv_sec := 1; tv_nsec := 200000000 |}.
Proof.
  apply (timespec_sub_add {| tv_sec := 5; tv_nsec := 900000000 |}
                          {| tv_sec := 1; tv_nsec := 200000000 |});
    vm_compute; repeat split; try discriminate.
Defined.

(** X6.  On normalized timestamps with representable totals [timespec_add]
    is associative, field by field. *)
Theorem timespec_add_assoc (a b c : timespec_t) :
  normalized a -> normalized b -> normalized c ->
  fits_long (total_nsec a) -> fits_long (total_nsec b) ->
  fits_long (total_nsec c) ->
  timespec_add (timespec_add a b) c = timespec_add a (timespec_add b c).
Proof.
  intros Na Nb Nc Fa Fb Fc.
  rewrite (timespec_add_exact a b), (timespec_add_exact b c)
    by (arith_setup; lia).
  destruct a as [sa na], b as [sb nb], c as [sc nc].
  arith_setup. cbn [tv_sec tv_nsec] in *.
  by_cases; use_exact; by_cases; f_equal; lia.
Qed.

Lemma timespec_add_assoc_witness :
  timespec_add (timespec_add {| tv_sec := 1; tv_nsec := 600000000 |}
                             {| tv_sec := 2; tv_nsec := 700000000 |})
               {| tv_sec := 3; tv_nsec := 800000000 |}
  = timespec_add {| tv_sec := 1; tv_nsec := 600000000 |}
                 (timespec_add {| tv_sec := 2; tv_nsec := 700000000 |}
                               {| tv_sec := 3; tv_nsec := 800000000 |}).
Proof.
  apply (timespec_add_assoc {| tv_sec := 1; tv_nsec := 600000000 |}
                            {| tv_sec := 2; tv_nsec := 700000000 |}
                            {| tv_sec := 3; tv_nsec := 800000000 |});
    vm_compute; repeat split; try discriminate.
Defined.

(** X7.  [timespec_add] carries but never borrows: adding to a normalized
    timestamp a duration with nanoseconds in (-10^9, 0], as [timespec_sub]
    gives for a stop before the start, leaves a normalized result exactly
    when the raw sum of the nanoseconds is not negative. *)
Theorem timespec_add_no_borrow (e d : timespec_t) :
  normalized e -> - _NSEC_PER_SEC < tv_nsec d <= 0 ->
  tv_nsec (timespec_add e d) = tv_nsec e + tv_nsec d
  /\ (normalized (timespec_add e d) <-> 0 <= tv_nsec e + tv_nsec d).
Proof.
  intros Ne Hd. arith_setup. unfold timespec_add. cbv zeta.
  change _NSEC_PER_SEC with 1000000000.
  assert (E : Long.add (tv_nsec e) (tv_nsec d) = tv_nsec e + tv_nsec d).
  { unfold Long.add. now nowrap. }
  rewrite E.
  destruct (Z.geb_spec (tv_nsec e + tv_nsec d) 1000000000) as [G | G];
    [lia |].
  cbn [tv_nsec]. split; [reflexivity | split; lia].
Qed.

Lemma timespec_add_no_borrow_witness :
  tv_nsec (timespec_add {| tv_sec := 1; tv_nsec := 10 |}
                        {| tv_sec := 0; tv_nsec := -50 |})
  = 10 + -50
  /\ (normalized (timespec_add {| tv_sec := 1; tv_nsec := 10 |}
                               {| tv_sec := 0; tv_nsec := -50 |})
      <-> 0 <= 10 + -50).
Proof.
  apply (timespec_add_no_borrow {| tv_sec := 1; tv_nsec := 10 |}
                                {| tv_sec := 0; tv_nsec := -50 |});
    vm_compute; repeat split; try discriminate.
Defined.

(** ** Unit conversions *)

(** Truncating division splits over seconds and nanoseconds as soon as the
    two components agree in sign. *)
Lemma quot_split (s n k c : Z) :
  0 < c -> 0 <= k ->
  (0 <= s /\ 0 <= n) \/ (s <= 0 /\ n <= 0) ->
  Z.quot (s * (k * c) + n) c = s * k + Z.quot n c.
Proof.
  intros Hc Hk H.
  replace (s * (k * c) + n) with (s * k * c + n) by ring.
  apply Z.quot_add_l; [lia | nia].
Qed.

Lemma quot_bounds (n c : Z) :
  0 < c ->
  (0 <= n -> 0 <= Z.quot n c <= n) /\ (n <= 0 -> n <= Z.quot n c <= 0).
Proof.
  intros Hc. split; intros P.
  - rewrite Z.quot_div_nonneg by lia.
    assert (0 <= n / c) by (apply Z.div_pos; lia).
    assert (n / c <= n) by (apply Z.div_le_upper_bound; nia).
    lia.
  - replace n with (- (- n)) by ring. rewrite Z.quot_opp_l by lia.
    rewrite Z.quot_div_nonneg by lia.
    assert (0 <= (- n) / c) by (apply Z.div_pos; lia).
    assert ((- n) / c <= - n) by (apply Z.div_le_upper_bound; nia).
    lia.
Qed.

Lemma timespec_msec_coherent (t : timespec_t) :
  sign_coherent t ->
  fits_long (total_nsec t) ->
  timespec_msec t = Z.quot (total_nsec t) 1000000.
Proof.
  unfold sign_coherent. intros H F. unfold total_nsec.
  change _NSEC_PER_SEC with (1000 * 1000000).
  rewrite quot_split by lia.
  pose proof (quot_bounds (tv_nsec t) 1000000 ltac:(lia)) as Q.
  unfold timespec_msec, Long.add, Long.mul, Long.div.
  change _MSEC_PER_SEC with 1000. change _USEC_PER_SEC with 1000000.
  arith_setup. generalize dependent (Z.quot (tv_nsec t) 1000000).
  intros q Q. nowrap. reflexivity.
Qed.

Lemma timespec_usec_coherent (t : timespec_t) :
  sign_coherent t ->
  fits_long (total_nsec t) ->
  timespec_usec t = Z.quot (total_nsec t) 1000.
Proof.
  unfold sign_coherent. intros H F. unfold total_nsec.
  change _NSEC_PER_SEC with (1000000 * 1000).
  rewrite quot_split by lia.
  pose proof (quot_bounds (tv_nsec t) 1000 ltac:(lia)) as Q.
  unfold timespec_usec, Long.add, Long.mul, Long.div.
  change _MSEC_PER_SEC with 1000. change _USEC_PER_SEC with 1000000.
  arith_setup. generalize dependent (Z.quot (tv_nsec t) 1000).
  intros q Q. nowrap. reflexivity.
Qed.

(** X8.  For a duration whose components agree in sign (both at least 0, or
    both at most 0) and whose total is representable, [timespec_usec] is
    [timespec_nsec] divided by 1000 with truncation towards zero. *)
Theorem timespec_usec_nsec (t : timespec_t) :
  sign_coherent t -> fits_long (total_nsec t) ->
  timespec_usec t = Z.quot (timespec_nsec t) 1000.
Proof.
  intros H F. rewrite (timespec_nsec_fits t F).
  now apply timespec_usec_coherent.
Qed.

Lemma timespec_usec_nsec_witness :
  timespec_usec {| tv_sec := -12; tv_nsec := -345678901 |}
  = Z.quot (timespec_nsec {| tv_sec := -12; tv_nsec := -345678901 |}) 1000.
Proof.
  apply (timespec_usec_nsec {| tv_sec := -12; tv_nsec := -345678901 |}).
  - right. vm_compute. split; discriminate.
  - vm_compute. split; discriminate.
Defined.

(** X9.  Under the same conditions [timespec_msec] is [timespec_usec]
    divided by 1000 with truncation towards zero: the millisecond and
    microsecond readings of one duration are consistent. *)
Theorem timespec_msec_usec (t : timespec_t) :
  sign_coherent t -> fits_long (total_nsec t) ->
  timespec_msec t = Z.quot (timespec_usec t) 1000.
Proof.
  intros H F.
  rewrite (timespec_msec_coherent t H F), (timespec_usec_coherent t H F).
  rewrite Z.quot_quot by lia. reflexivity.
Qed.

Lemma timespec_msec_usec_witness :
  timespec_msec {| tv_sec := 12; tv_nsec := 345678901 |}
  = Z.quot (timespec_usec {| tv_sec := 12; tv_nsec := 345678901 |}) 1000.
Proof.
  apply (timespec_msec_usec {| tv_sec := 12; tv_nsec := 345678901 |}).
  - left. vm_compute. split; discriminate.
  - vm_compute. split; discriminate.
Defined.

(** X10.  Negative durations convert consistently too: when seconds and
    nanoseconds are both at most 0 and the total is representable,
    [timespec_msec] is [timespec_nsec] divided by 1,000,000 with truncation
    towards zero. *)
Theorem timespec_msec_nsec_negative (t : timespec_t) :
  tv_sec t <= 0 -> tv_nsec t <= 0 -> fits_long (total_nsec t) ->
  timespec_msec t = Z.quot (timespec_nsec t) 1000000.
Proof.
  intros Hs Hn F. rewrite (timespec_nsec_fits t F).
  apply timespec_msec_coherent; [right; split; assumption | exact F].
Qed.

Lemma timespec_msec_nsec_negative_witness :
  timespec_msec {| tv_sec := -12; tv_nsec := -345678901 |}
  = Z.quot (timespec_nsec {| tv_sec := -12; tv_nsec := -345678901 |}) 1000000.
Proof.
  apply (timespec_msec_nsec_negative {| tv_sec := -12; tv_nsec := -345678901 |});
    vm_compute; repeat split; try discriminate.
Defined.

(** The difference of normalized timestamps with representable totals has
    components that agree in sign, and its exact total is the difference of
    the totals, whichever operand is the later one. *)
Lemma timespec_sub_coherent (a b : timespec_t) :
  normalized a -> normalized b ->
  fits_long (total_nsec a) -> fits_long (total_nsec b) ->
  sign_coherent (timespec_sub a b)
  /\ total_nsec (timespec_sub a b) = total_nsec b - total_nsec a.
Proof.
  intros Na Nb Fa Fb. unfold sign_coherent.
  destruct (Z.le_ge_cases (total_nsec a) (total_nsec b)) as [L | L].
  - destruct (timespec_sub_forward_aux a b Na Nb Fa Fb L) as (P & Q & R).
    unfold normalized in Q. split; [left; lia | exact R].
  - destruct (timespec_sub_backward_aux a b Na Nb Fa Fb L) as (P & Q & R).
    split; [right; lia | exact R].
Qed.

(** X11.  Readings of a difference: for normalized [a] and [b] with
    representable totals and a representable difference of totals, in either
    order, [timespec_msec] and [timespec_usec] of [timespec_sub a b] are
    [timespec_nsec b - timespec_nsec a] divided by 1,000,000 and by 1000 with
    truncation towards zero. *)
Theorem timespec_sub_readings (a b : timespec_t) :
  normalized a -> normalized b ->
  fits_long (total_nsec a) -> fits_long (total_nsec b) ->
  fits_long (total_nsec b - total_nsec a) ->
  timespec_msec (timespec_sub a b)
  = Z.quot (timespec_nsec b - timespec_nsec a) 1000000
  /\ timespec_usec (timespec_sub a b)
     = Z.quot (timespec_nsec b - timespec_nsec a) 1000.
Proof.
  intros Na Nb Fa Fb Fd.
  destruct (timespec_sub_coherent a b Na Nb Fa Fb) as [C T].
  rewrite (timespec_nsec_fits a Fa), (timespec_nsec_fits b Fb), <- T.
  rewrite <- T in Fd. split.
  - now apply timespec_msec_coherent.
  - now apply timespec_usec_coherent.
Qed.

Lemma timespec_sub_readings_witness :
  timespec_msec (timespec_sub {| tv_sec := 6; tv_nsec := 50 |}
                              {| tv_sec := 5; tv_nsec := 100 |})
  = Z.quot (timespec_nsec {| tv_sec := 5; tv_nsec := 100 |}
            - timespec_nsec {| tv_sec := 6; tv_nsec := 50 |}) 1000000
  /\ timespec_usec (timespec_sub {| tv_sec := 6; tv_nsec := 50 |}
                                 {| tv_sec := 5; tv_nsec := 100 |})
     = Z.quot (timespec_nsec {| tv_sec := 5; tv_nsec := 100 |}
               - timespec_nsec {| tv_sec := 6; tv_nsec := 50 |}) 1000.
Proof.
  apply (timespec_sub_readings {| tv_sec := 6; tv_nsec := 50 |}
                               {| tv_sec := 5; tv_nsec := 100 |});
    vm_compute; repeat split; try discriminate.
Defined.

(** * Further properties of the stopwatch *)

(** Whatever the seconds do, the difference of normalized timestamps has
    representable seconds and nanoseconds strictly between -10^9 and 10^9. *)
Lemma timespec_sub_fields (a b : timespec_t) :
  normalized a -> normalized b ->
  fits_long (tv_sec (timespec_sub a b))
  /\ - 1000000000 < tv_nsec (timespec_sub a b) < 1000000000.
Proof.
  intros Na Nb. unfold timespec_sub. cbv zeta.
  assert (En : Long.sub (tv_nsec b) (tv_nsec a) = tv_nsec b - tv_nsec a).
  { arith_setup. unfold Long.sub. now nowrap. }
  rewrite En.
  set (s := Long.sub (tv_sec b) (tv_sec a)).
  assert (R : fits_long s) by apply wrap_range. clearbody s.
  destruct ((s >? 0) && (tv_nsec b - tv_nsec a <? 0)) eqn:B1;
    [| destruct ((s <? 0) && (tv_nsec b - tv_nsec a >? 0)) eqn:B2];
    cbn [tv_sec tv_nsec].
  - apply andb_prop in B1. destruct B1 as [_ B1]. apply Z.ltb_lt in B1.
    split; [apply wrap_range |].
    unfold Long.add. arith_setup. nowrap. lia.
  - apply andb_prop in B2. destruct B2 as [_ B2]. apply Z.gtb_lt in B2.
    split; [apply wrap_range |].
    unfold Long.sub. arith_setup. nowrap. lia.
  - split; [exact R | arith_setup; lia].
Qed.

Lemma timespec_add_zero_l (d : timespec_t) :
  fits_long (tv_sec d) -> fits_long (tv_nsec d) -> tv_nsec d < 1000000000 ->
  timespec_add {| tv_sec := 0; tv_nsec := 0 |} d = d.
Proof.
  intros Fs Fn Hn. unfold timespec_add, Long.add. cbv zeta.
  cbn [tv_sec tv_nsec]. rewrite !Z.add_0_l.
  rewrite (wrap_fits _ Fs), (wrap_fits _ Fn).
  change _NSEC_PER_SEC with 1000000000.
  destruct (Z.geb_spec (tv_nsec d) 1000000000); [lia |].
  now destruct d.
Qed.

(** X12.  On a stopwatch whose [tic] and [toc] are normalized, the first lap
    after a reset stores what a measure stores: [ctimer_lap] after
    [ctimer_reset] is [ctimer_measure], whichever of [tic] and [toc] is the
    later one. *)
Theorem ctimer_lap_after_reset (t : ctimer_t) :
  normalized (tic t) -> normalized (toc t) ->
  ctimer_lap (ctimer_reset t) = ctimer_measure t.
Proof.
  intros Ni No. unfold ctimer_lap, ctimer_reset, ctimer_measure.
  cbv zeta. cbn [tic toc elapsed]. f_equal.
  destruct (timespec_sub_fields (tic t) (toc t) Ni No) as [Fs Hn].
  apply timespec_add_zero_l; [exact Fs | | lia].
  unfold fits_long, LONG_MIN, LONG_MAX. lia.
Qed.

Lemma ctimer_lap_after_reset_witness :
  ctimer_lap (ctimer_reset
                {| tic := {| tv_sec := 6; tv_nsec := 50 |};
                   toc := {| tv_sec := 5; tv_nsec := 100 |};
                   elapsed := {| tv_sec := 9; tv_nsec := 9 |} |})
  = ctimer_measure
      {| tic := {| tv_sec := 6; tv_nsec := 50 |};
         toc := {| tv_sec := 5; tv_nsec := 100 |};
         elapsed := {| tv_sec := 9; tv_nsec := 9 |} |}.
Proof.
  apply (ctimer_lap_after_reset
           {| tic := {| tv_sec := 6; tv_nsec := 50 |};
              toc := {| tv_sec := 5; tv_nsec := 100 |};
              elapsed := {| tv_sec := 9; tv_nsec := 9 |} |});
    vm_compute; repeat split; try discriminate.
Defined.

(** ** Runs over a monotonic clock *)

Lemma monotonic_two (w : world) (k : nat) :
  monotonic w (S (S k)) ->
  clock_sample (samples w (reads w))
  /\ clock_sample (samples w (S (reads w)))
  /\ total_nsec (samples w (reads w)) <= total_nsec (samples w (S (reads w)))
  /\ monotonic (after_lap w) k.
Proof.
  intros M.
  destruct (M 0%nat ltac:(lia)) as [C0 L0].
  destruct (M 1%nat ltac:(lia)) as [C1 _].
  specialize (L0 ltac:(lia)).
  rewrite Nat.add_0_r in C0, L0. rewrite Nat.add_1_r in C1, L0.
  split; [exact C0 |]. split; [exact C1 |]. split; [exact L0 |].
  intros i Hi. destruct (M (S (S i)) ltac:(lia)) as [C L].
  unfold after_lap. cbn [samples reads].
  replace (S (S (reads w)) + i)%nat with (reads w + S (S i))%nat by lia.
  split; [exact C |]. intros Hi'.
  replace (S (S (reads w)) + S i)%nat with (reads w + S (S (S i)))%nat by lia.
  apply L. lia.
Qed.

Lemma example_main_eq (m : bool) (t : ctimer_t) (w : world) :
  example_main m t w
  = ({| tic := samples w (reads w);
        toc := samples w (S (reads w));
        elapsed := timespec_sub (samples w (reads w))
                                (samples w (S (reads w))) |},
     after_lap w).
Proof. destruct m; reflexivity. Qed.

(** X13.  The single-measurement example, in either build: when the two
    reads of the clock return ordered clock samples, the stopwatch ends with
    [tic] and [toc] holding them, and [elapsed] a normalized timestamp with
    non-negative seconds whose [timespec_nsec] is exactly
    [timespec_nsec toc - timespec_nsec tic]. *)
Theorem example_main_measures (m : bool) (t : ctimer_t) (w : world) :
  monotonic w 2 ->
  tic (fst (example_main m t w)) = samples w (reads w)
  /\ toc (fst (example_main m t w)) = samples w (S (reads w))
  /\ 0 <= tv_sec (elapsed (fst (example_main m t w)))
  /\ normalized (elapsed (fst (example_main m t w)))
  /\ timespec_nsec (elapsed (fst (example_main m t w)))
     = timespec_nsec (toc (fst (example_main m t w)))
       - timespec_nsec (tic (fst (example_main m t w))).
Proof.
  intros M. rewrite example_main_eq. cbn [fst tic toc elapsed].
  destruct (monotonic_two w 0 M) as ((N0 & P0 & F0) & (N1 & P1 & F1) & L & _).
  destruct (timespec_sub_forward_aux _ _ N0 N1 F0 F1 L) as (S & N & T).
  repeat split; try assumption; try apply N.
  rewrite (timespec_nsec_fits _ F0), (timespec_nsec_fits _ F1), <- T.
  apply timespec_nsec_fits. rewrite T. arith_setup. lia.
Qed.

Ltac check_sample :=
  split;
  [ vm_compute; repeat split; try discriminate
  | intros ?; first [lia | vm_compute; discriminate] ].

Lemma example_main_measures_witness :
  tic (fst (example_main true example_timer example_world))
  = samples example_world (reads example_world)
  /\ toc (fst (example_main true example_timer example_world))
     = samples example_world (S (reads example_world))
  /\ 0 <= tv_sec (elapsed (fst (example_main true example_timer example_world)))
  /\ normalized (elapsed (fst (example_main true example_timer example_world)))
  /\ timespec_nsec (elapsed (fst (example_main true example_timer example_world)))
     = timespec_nsec (toc (fst (example_main true example_timer example_world)))
       - timespec_nsec (tic (fst (example_main true example_timer example_world))).
Proof.
  apply (example_main_measures true example_timer example_world).
  intros i Hi. do 2 (destruct i as [| i]; [check_sample |]). lia.
Defined.

(** The sum of the laps over ordered clock samples is not negative, and is
    bounded by the distance from the first sample to any bound of the
    samples read. *)
Lemma lap_sum_bounds (n : nat) : forall (w : world) (x : Z),
  monotonic w (2 * n) ->
  (forall i : nat, (i < 2 * n)%nat ->
     total_nsec (samples w (reads w + i)) <= x) ->
  0 <= lap_sum w n
  /\ ((1 <= n)%nat -> lap_sum w n <= x - total_nsec (samples w (reads w))).
Proof.
  induction n as [| k IH]; intros w x M B.
  - split; [cbn; lia | lia].
  - replace (2 * S k)%nat with (S (S (2 * k))) in M, B by lia.
    destruct (monotonic_two w (2 * k) M)
      as ((N0 & P0 & F0) & (N1 & P1 & F1) & L & M').
    rewrite lap_sum_S, start_sample_0, stop_sample_0.
    rewrite (timespec_nsec_fits _ F0), (timespec_nsec_fits _ F1).
    assert (B' : forall i : nat, (i < 2 * k)%nat ->
              total_nsec (samples (after_lap w) (reads (after_lap w) + i)) <= x).
    { intros i Hi. unfold after_lap. cbn [samples reads].
      replace (S (S (reads w)) + i)%nat with (reads w + S (S i))%nat by lia.
      apply B. lia. }
    destruct (IH (after_lap w) x M' B') as [P U].
    split; [lia |]. intros _.
    destruct k as [| k'].
    + cbn. specialize (B 1%nat ltac:(lia)). rewrite Nat.add_1_r in B. lia.
    + specialize (U ltac:(lia)).
      destruct (M 1%nat ltac:(lia)) as [_ L12]. specialize (L12 ltac:(lia)).
      rewrite Nat.add_1_r in L12.
      change (samples (after_lap w) (reads (after_lap w)))
        with (samples w (S (S (reads w)))) in U.
      replace (reads w + 2)%nat with (S (S (reads w))) in L12 by lia.
      lia.
Qed.

(** Adding two normalized durations with non-negative seconds. *)
Lemma timespec_add_nonneg (a b : timespec_t) :
  normalized a -> normalized b -> 0 <= tv_sec a -> 0 <= tv_sec b ->
  fits_long (total_nsec a + total_nsec b) ->
  normalized (timespec_add a b)
  /\ 0 <= tv_sec (timespec_add a b)
  /\ total_nsec (timespec_add a b) = total_nsec a + total_nsec b.
Proof.
  intros Na Nb Pa Pb F. use_exact. arith_setup.
  by_cases; repeat split; cbn [tv_sec tv_nsec]; lia.
Qed.

(** Invariant of the lap loop over ordered clock samples: [elapsed] stays a
    normalized timestamp with non-negative seconds, and its exact total grows
    by the sum of the laps. *)
Lemma lap_loop_invariant (n : nat) : forall (t : ctimer_t) (w : world),
  monotonic w (2 * n) ->
  normalized (elapsed t) -> 0 <= tv_sec (elapsed t) ->
  fits_long (total_nsec (elapsed t) + lap_sum w n) ->
  normalized (elapsed (fst (lap_loop n t w)))
  /\ 0 <= tv_sec (elapsed (fst (lap_loop n t w)))
  /\ total_nsec (elapsed (fst (lap_loop n t w)))
     = total_nsec (elapsed t) + lap_sum w n.
Proof.
  induction n as [| k IH]; intros t w M Ne Pe F.
  - cbn. repeat split; try apply Ne; try assumption. lia.
  - replace (2 * S k)%nat with (S (S (2 * k))) in M by lia.
    destruct (monotonic_two w (2 * k) M)
      as ((N0 & P0 & F0) & (N1 & P1 & F1) & L & M').
    destruct (timespec_sub_forward_aux _ _ N0 N1 F0 F1 L) as (Sd & Nd & Td).
    assert (B' : forall i : nat, (i < 2 * k)%nat ->
              total_nsec (samples (after_lap w) (reads (after_lap w) + i))
              <= LONG_MAX).
    { intros i Hi. destruct (M' i Hi) as [(_ & _ & Fi) _]. apply Fi. }
    destruct (lap_sum_bounds k (after_lap w) LONG_MAX M' B') as [P _].
    rewrite lap_sum_S, start_sample_0, stop_sample_0 in F |- *.
    rewrite (timespec_nsec_fits _ F0), (timespec_nsec_fits _ F1) in F |- *.
    assert (Fa : fits_long (total_nsec (elapsed t)
                            + total_nsec (timespec_sub (samples w (reads w))
                                            (samples w (S (reads w)))))).
    { rewrite Td. assert (0 <= total_nsec (elapsed t)) by (arith_setup; lia).
      unfold fits_long, LONG_MIN, LONG_MAX in *. lia. }
    destruct (timespec_add_nonneg _ _ Ne Nd Pe Sd Fa) as (Na & Pa & Ta).
    rewrite lap_loop_S, lap_iteration_eq. cbn [fst snd].
    set (t1 := {| tic := samples w (reads w);
                  toc := samples w (S (reads w));
                  elapsed := timespec_add (elapsed t)
                               (timespec_sub (samples w (reads w))
                                             (samples w (S (reads w)))) |}).
    assert (F1' : fits_long (total_nsec (elapsed t1) + lap_sum (after_lap w) k)).
    { unfold t1. cbn [elapsed]. rewrite Ta, Td.
      unfold fits_long in *. lia. }
    destruct (IH t1 (after_lap w) M' Na Pa F1') as (Nr & Pr & Tr).
    split; [exact Nr |]. split; [exact Pr |].
    rewrite Tr. unfold t1. cbn [elapsed]. rewrite Ta, Td. ring.
Qed.

Lemma lap_loop_monotonic_aux (n : nat) (t : ctimer_t) (w : world) :
  monotonic w (2 * n) ->
  normalized (elapsed (fst (lap_loop n (ctimer_reset t) w)))
  /\ 0 <= tv_sec (elapsed (fst (lap_loop n (ctimer_reset t) w)))
  /\ timespec_nsec (elapsed (fst (lap_loop n (ctimer_reset t) w)))
     = lap_sum w n
  /\ 0 <= lap_sum w n.
Proof.
  intros M.
  assert (B : forall i : nat, (i < 2 * n)%nat ->
            total_nsec (samples w (reads w + i)) <= LONG_MAX).
  { intros i Hi. destruct (M i Hi) as [(_ & _ & Fi) _]. apply Fi. }
  destruct (lap_sum_bounds n w LONG_MAX M B) as [P U].
  assert (F : fits_long (lap_sum w n)).
  { destruct n as [| k].
    - cbn. unfold fits_long, LONG_MIN, LONG_MAX. lia.
    - specialize (U ltac:(lia)).
      destruct (M 0%nat ltac:(lia)) as [(_ & P0 & _) _].
      rewrite Nat.add_0_r in P0.
      destruct (M 0%nat ltac:(lia)) as [(N0 & _ & _) _].
      rewrite Nat.add_0_r in N0.
      arith_setup. lia. }
  destruct (lap_loop_invariant n (ctimer_reset t) w M) as (Nr & Pr & Tr).
  - cbn. unfold normalized. cbn. change _NSEC_PER_SEC with 1000000000. lia.
  - cbn. lia.
  - cbn. exact F.
  - cbn in Tr. repeat split; try apply Nr; try assumption.
    rewrite timespec_nsec_fits; rewrite Tr; [reflexivity | exact F].
Qed.

(** X14.  The lap loop over a monotonic clock: after [ctimer_reset] and [n]
    iterations of start, stop, lap whose [2 n] reads return ordered clock
    samples, [elapsed] is a normalized timestamp with non-negative seconds,
    and [timespec_nsec elapsed] is the sum of the laps, which is not
    negative.  No overflow has to be assumed: the sum is bounded by the last
    sample. *)
Theorem lap_loop_monotonic (n : nat) (t : ctimer_t) (w : world) :
  monotonic w (2 * n) ->
  normalized (elapsed (fst (lap_loop n (ctimer_reset t) w)))
  /\ 0 <= tv_sec (elapsed (fst (lap_loop n (ctimer_reset t) w)))
  /\ timespec_nsec (elapsed (fst (lap_loop n (ctimer_reset t) w)))
     = lap_sum w n
  /\ 0 <= lap_sum w n.
Proof. apply lap_loop_monotonic_aux. Qed.

Lemma lap_loop_monotonic_witness :
  normalized (elapsed (fst (lap_loop 2 (ctimer_reset example_timer)
                                     example_world)))
  /\ 0 <= tv_sec (elapsed (fst (lap_loop 2 (ctimer_reset example_timer)
                                         example_world)))
  /\ timespec_nsec (elapsed (fst (lap_loop 2 (ctimer_reset example_timer)
                                           example_world)))
     = lap_sum example_world 2
  /\ 0 <= lap_sum example_world 2.
Proof.
  apply (lap_loop_monotonic 2 example_timer example_world).
  intros i Hi. do 4 (destruct i as [| i]; [check_sample |]). lia.
Defined.

(** ** The lap loop in a build with [CTIMER_MEASURE_ON_STOP] *)

Lemma lap_loop_in_false (n : nat) : forall (t : ctimer_t) (w : world),
  lap_loop_in false n t w = lap_loop n t w.
Proof.
  induction n as [| k IH]; intros t w; [reflexivity |].
  change (lap_loop_in false (S k) t w)
    with (lap_loop_in false k (fst (lap_iteration t w))
                              (snd (lap_iteration t w))).
  rewrite IH. reflexivity.
Qed.

Lemma lap_loop_in_true_S (k : nat) (t : ctimer_t) (w : world) :
  lap_loop_in true (S k) t w
  = lap_loop_in true k
      {| tic := samples w (reads w);
         toc := samples w (S (reads w));
         elapsed := timespec_add
                      (timespec_sub (samples w (reads w))
                                    (samples w (S (reads w))))
                      (timespec_sub (samples w (reads w))
                                    (samples w (S (reads w)))) |}
      (after_lap w).
Proof. reflexivity. Qed.

(** X15.  In a build with [CTIMER_MEASURE_ON_STOP] the loop of start, stop,
    lap does not accumulate: every stop overwrites [elapsed] with the current
    lap and the lap that follows adds it once more, so after [n + 1]
    iterations [elapsed] is the last lap added to itself, whatever the
    stopwatch held before and whatever the earlier laps were. *)
Theorem lap_loop_measure_on_stop (n : nat) : forall (t : ctimer_t) (w : world),
  elapsed (fst (lap_loop_in true (S n) t w))
  = timespec_add (timespec_sub (start_sample w n) (stop_sample w n))
                 (timespec_sub (start_sample w n) (stop_sample w n))
  /\ tic (fst (lap_loop_in true (S n) t w)) = start_sample w n
  /\ toc (fst (lap_loop_in true (S n) t w)) = stop_sample w n.
Proof.
  induction n as [| k IH]; intros t w.
  - rewrite lap_loop_in_true_S. cbn [lap_loop_in ret fst tic toc elapsed].
    now rewrite start_sample_0, stop_sample_0.
  - rewrite lap_loop_in_true_S.
    rewrite <- start_sample_after_lap, <- stop_sample_after_lap.
    apply IH.
Qed.

(** ** The lap example *)

Lemma monotonic_le (w : world) (k : nat) :
  monotonic w k ->
  forall j i : nat, (i <= j)%nat -> (j < k)%nat ->
    total_nsec (samples w (reads w + i)) <= total_nsec (samples w (reads w + j)).
Proof.
  intros M. induction j as [| j IH]; intros i Hi Hj.
  - replace i with 0%nat by lia. lia.
  - destruct (Nat.eq_dec i (S j)) as [-> | Ne]; [lia |].
    destruct (M j ltac:(lia)) as [_ L]. specialize (L Hj).
    specialize (IH i ltac:(lia) ltac:(lia)). lia.
Qed.

Lemma monotonic_tail (w : world) (k : nat) :
  monotonic w (S k) ->
  monotonic {| samples := samples w; reads := S (reads w) |} k.
Proof.
  intros M i Hi. cbn [samples reads].
  destruct (M (S i) ltac:(lia)) as [C L].
  replace (S (reads w) + i)%nat with (reads w + S i)%nat by lia.
  split; [exact C |]. intros Hi'.
  replace (S (reads w) + S i)%nat with (reads w + S (S i))%nat by lia.
  apply L. lia.
Qed.

Lemma lap_example_main_eq (n : nat) (t_total t_body : ctimer_t) (w : world) :
  fst (lap_example_main false n t_total t_body w)
  = ({| tic := samples w (reads w);
        toc := samples w (reads w + (2 * n + 1));
        elapsed := timespec_sub (samples w (reads w))
                                (samples w (reads w + (2 * n + 1))) |},
     fst (lap_loop n (ctimer_reset t_body)
            {| samples := samples w; reads := S (reads w) |})).
Proof.
  unfold lap_example_main, ctimer_start, clock_gettime.
  unfold bind, ret. cbv beta iota.
  rewrite lap_loop_in_false.
  pose proof (lap_loop_world n (ctimer_reset t_body)
                {| samples := samples w; reads := S (reads w) |}) as W.
  destruct (lap_loop n (ctimer_reset t_body)
              {| samples := samples w; reads := S (reads w) |}) as [tb w'].
  cbn [snd samples reads] in W. subst w'.
  unfold ctimer_stop, bind, clock_gettime, ret, ctimer_measure.
  cbn [fst snd samples reads tic toc elapsed].
  replace (S (reads w) + 2 * n)%nat with (reads w + (2 * n + 1))%nat by lia.
  reflexivity.
Qed.

Lemma monotonic_weaken (w : world) (k k' : nat) :
  monotonic w k -> (k' <= k)%nat -> monotonic w k'.
Proof.
  intros M Hk i Hi. destruct (M i ltac:(lia)) as [C L].
  split; [exact C |]. intros Hi'. apply L. lia.
Qed.

(** X16.  The lap example over a monotonic clock: a total timer started
    before and stopped after a loop of [n] laps of a body timer (the source
    has [n = 5]).  When the [2 n + 2] reads return ordered clock samples, the
    total timer holds the first and the last sample and measures exactly
    their distance, and the time accumulated by the body timer is not
    negative and never exceeds the total. *)
Theorem lap_example_main_total (n : nat) (t_total t_body : ctimer_t)
  (w : world) :
  monotonic w (2 * n + 2) ->
  tic (fst (fst (lap_example_main false n t_total t_body w)))
  = samples w (reads w)
  /\ toc (fst (fst (lap_example_main false n t_total t_body w)))
     = samples w (reads w + (2 * n + 1))
  /\ timespec_nsec
       (elapsed (fst (fst (lap_example_main false n t_total t_body w))))
     = timespec_nsec (samples w (reads w + (2 * n + 1)))
       - timespec_nsec (samples w (reads w))
  /\ 0 <= timespec_nsec
            (elapsed (snd (fst (lap_example_main false n t_total t_body w))))
       <= timespec_nsec
            (elapsed (fst (fst (lap_example_main false n t_total t_body w)))).
Proof.
  intros M. rewrite lap_example_main_eq. cbn [fst snd tic toc elapsed].
  set (w1 := {| samples := samples w; reads := S (reads w) |}).
  assert (M1 : monotonic w1 (2 * n)).
  { apply monotonic_tail. apply (monotonic_weaken w (2 * n + 2)); [exact M | lia]. }
  destruct (lap_loop_monotonic_aux n t_body w1 M1) as (_ & _ & Tb & Pb).
  destruct (M 0%nat ltac:(lia)) as [(N0 & P0 & F0) _].
  rewrite Nat.add_0_r in N0, P0, F0.
  destruct (M (2 * n + 1)%nat ltac:(lia)) as [(Nl & Pl & Fl) _].
  pose proof (monotonic_le w _ M (2 * n + 1)%nat 0%nat ltac:(lia) ltac:(lia)) as L0.
  rewrite Nat.add_0_r in L0.
  destruct (timespec_sub_forward_aux _ _ N0 Nl F0 Fl L0) as (_ & _ & Td).
  assert (Ed : timespec_nsec (timespec_sub (samples w (reads w))
                                (samples w (reads w + (2 * n + 1))))
               = total_nsec (samples w (reads w + (2 * n + 1)))
                 - total_nsec (samples w (reads w))).
  { rewrite <- Td. apply timespec_nsec_fits. rewrite Td. arith_setup. lia. }
  rewrite Ed, Tb, (timespec_nsec_fits _ F0), (timespec_nsec_fits _ Fl).
  split; [reflexivity |]. split; [reflexivity |]. split; [reflexivity |].
  split; [exact Pb |].
  assert (B : forall i : nat, (i < 2 * n)%nat ->
            total_nsec (samples w1 (reads w1 + i))
            <= total_nsec (samples w (reads w + (2 * n + 1)))).
  { intros i Hi. unfold w1. cbn [samples reads].
    replace (S (reads w) + i)%nat with (reads w + S i)%nat by lia.
    apply (monotonic_le w _ M); lia. }
  destruct (lap_sum_bounds n w1 _ M1 B) as [_ U].
  destruct n as [| k].
  - cbn [lap_sum seq map fold_right]. lia.
  - specialize (U ltac:(lia)). unfold w1 at 2 3 in U. cbn [samples reads] in U.
    pose proof (monotonic_le w _ M 1%nat 0%nat ltac:(lia) ltac:(lia)) as L1.
    rewrite Nat.add_0_r, Nat.add_1_r in L1. lia.
Qed.

Lemma lap_example_main_total_witness :
  tic (fst (fst (lap_example_main false 2 example_timer example_timer
                                  example_world)))
  = samples example_world (reads example_world)
  /\ toc (fst (fst (lap_example_main false 2 example_timer example_timer
                                     example_world)))
     = samples example_world (reads example_world + (2 * 2 + 1))
  /\ timespec_nsec
       (elapsed (fst (fst (lap_example_main false 2 example_timer
                                            example_timer example_world))))
     = timespec_nsec (samples example_world
                        (reads example_world + (2 * 2 + 1)))
       - timespec_nsec (samples example_world (reads example_world))
  /\ 0 <= timespec_nsec
            (elapsed (snd (fst (lap_example_main false 2 example_timer
                                                 example_timer example_world))))
       <= timespec_nsec
            (elapsed (fst (fst (lap_example_main false 2 example_timer
                                                 example_timer example_world)))).
Proof.
  apply (lap_example_main_total 2 example_timer example_timer example_world).
  intros i Hi. do 6 (destruct i as [| i]; [check_sample |]). lia.
Defined.

(** The lap example, evaluated on the example clock with the 5 iterations of
    the source: 21.2 s in total, of which 14 s in the body. *)
Example lap_example_main_run :
  timespec_nsec
    (elapsed (fst (fst (lap_example_main false 5 example_timer example_timer
                                         example_world))))
  = 21200000000
  /\ timespec_nsec
       (elapsed (snd (fst (lap_example_main false 5 example_timer example_timer
                                            example_world))))
     = 14000000000.
Proof. split; vm_compute; reflexivity. Qed.
